(** * The Hextuples parser of rdflib ([rdflib/plugins/parsers/hext.py])

    A shallow embedding of [HextuplesParser] and the properties of its line
    decoder ([_load_json_line]), its term resolution and emission
    ([_parse_hextuple]) and its driver ([parse]).

    Python objects are modelled as follows.
    - A [str] is the sequence of its Unicode code points.
    - A raised exception is the [Raise] case of [result]; the statements of a
      function body are chained with [x <- c ;; k].
    - The store behind the graph is one shared mutable object: it is threaded
      through the calls, and what a call returns is the store it leaves. *)

From Stdlib Require Import String Ascii NArith Bool Arith Lia List.
Import ListNotations.
Local Open Scope list_scope.

(** ** Python strings *)

Definition char := N.
Definition str := list char.

(** The [str] written by an ASCII literal of this file. *)
Definition lit (s : string) : str := map N_of_ascii (list_ascii_of_string s).

(** [a == b] on two [str]. *)
Fixpoint str_eqb (a b : str) : bool :=
  match a, b with
  | [], [] => true
  | x :: a', y :: b' => N.eqb x y && str_eqb a' b'
  | _, _ => false
  end.

(** [s.startswith(prefix)]. *)
Fixpoint startswith (s prefix : str) {struct prefix} : bool :=
  match prefix with
  | [] => true
  | p :: prefix' =>
      match s with
      | [] => false
      | c :: s' => N.eqb c p && startswith s' prefix'
      end
  end.

(** The scan of [str.replace] for a non-empty [old]: occurrences are taken
    from left to right and do not overlap; [skip] counts the characters of the
    occurrence just replaced that are still to be passed. *)
Fixpoint replace_from (old new : str) (skip : nat) (s : str) : str :=
  match s with
  | [] => []
  | c :: s' =>
      match skip with
      | S k => replace_from old new k s'
      | O =>
          if startswith s old
          then new ++ replace_from old new (length old - 1) s'
          else c :: replace_from old new 0 s'
      end
  end.

(** [s.replace(old, new)]: every occurrence of [old] is replaced. *)
Definition replace (s old new : str) : str :=
  match old with
  | [] => new ++ flat_map (fun c => c :: new) s
  | _ :: _ => replace_from old new 0 s
  end.

(** [old] occurs somewhere in [s] ([old in s]). *)
Fixpoint occurs (old s : str) : bool :=
  startswith s old ||
  match s with
  | [] => false
  | _ :: s' => occurs old s'
  end.

(** ** Python values and exceptions *)

Set Warnings "-register-all".

(** What [json.loads] can return: [None], a bool, a number (kept as its
    lexeme: only its not being a [str], a list or [None] matters here), a
    [str], a list, or a dict given by its items in order. *)
Inductive pyval : Type :=
| PyNone
| PyBool (b : bool)
| PyNumber (lexeme : str)
| PyStr (s : str)
| PyList (xs : list pyval)
| PyDict (items : list (str * pyval)).

(** The exceptions these functions raise.  [ValueError given] is the one
    [_parse_hextuple] raises: its message is
    ["subject, predicate, value, datatype cannot be None. Given: "] followed
    by the text of the record [given]. *)
Inductive exn : Type :=
| JSONDecodeError
| TypeError
| IndexError
| KeyError
| ValueError (given : list (option str))
| AssertionError
| OSError.

Inductive result (A : Type) : Type :=
| Ok (a : A)
| Raise (e : exn).
Arguments Ok {A} a.
Arguments Raise {A} e.

Definition bind {A B : Type} (c : result A) (k : A -> result B) : result B :=
  match c with
  | Ok a => k a
  | Raise e => Raise e
  end.

Notation "x <- c ;; k" := (bind c (fun x => k))
  (at level 61, c at next level, right associativity).

(** [x] is the empty [str]: the test [x == ''] on an arbitrary value. *)
Definition is_empty_str (x : pyval) : bool :=
  match x with
  | PyStr [] => true
  | _ => false
  end.

(** The values [for x in v] goes through: the elements of a list, the
    one-character strings of a [str], the keys of a dict; other values are not
    iterable. *)
Definition py_iter (v : pyval) : result (list pyval) :=
  match v with
  | PyList xs => Ok xs
  | PyStr s => Ok (map (fun c => PyStr [c]) s)
  | PyDict items => Ok (map (fun kv => PyStr (fst kv)) items)
  | _ => Raise TypeError
  end.

(** [l[i]] on a list. *)
Definition getitem {A : Type} (l : list A) (i : nat) : result A :=
  match nth_error l i with
  | Some x => Ok x
  | None => Raise IndexError
  end.

(** [v[i]] for a non-negative integer [i]: a dict decoded from JSON has only
    [str] keys, so an integer key is never found. *)
Definition py_getitem (v : pyval) (i : nat) : result pyval :=
  match v with
  | PyList xs => getitem xs i
  | PyStr s => c <- getitem s i ;; Ok (PyStr [c])
  | PyDict _ => Raise KeyError
  | _ => Raise TypeError
  end.

Fixpoint update {A : Type} (l : list A) (i : nat) (v : A) : list A :=
  match l, i with
  | [], _ => []
  | _ :: l', O => v :: l'
  | x :: l', S j => x :: update l' j v
  end.

(** [l[i] = v] on a list: out of range it raises. *)
Definition setitem {A : Type} (l : list A) (i : nat) (v : A)
  : result (list A) :=
  if i <? length l then Ok (update l i v) else Raise IndexError.

(** ** RDF terms and the store *)

(** Modelled from the spec: the term constructors of [rdflib.term] (not under
    src/), as the tagged union of the data model: [IRI(string)],
    [BlankNode(string)] and [Literal(lexicalValue, kind)] with kind
    [TypedLiteral(datatypeIRI)] or [LangLiteral(languageTag)].  They keep the
    names the source calls them by. *)
Inductive Term : Type :=
| URIRef (value : str)
| BNode (value : str)
| Literal (value : str) (kind : LiteralKind)
with LiteralKind : Type :=
| TypedLiteral (datatype : Term)
| LangLiteral (lang : str).

(** The argument of [ConjunctiveGraph.add]: a 3-tuple or a 4-tuple. *)
Inductive triple_or_quad : Type :=
| Triple (s p o : Term)
| Quad (s p o c : Term).

(** One insertion into the store: a triple and the graph it went to, named by
    that graph's identifier. *)
Record Insertion : Type := {
  subject : Term;
  predicate : Term;
  object : Term;
  context : Term
}.

(** The store: its capability flag and the insertions made, oldest first
    (nothing is merged or reordered). *)
Record Store : Type := {
  context_aware : bool;
  inserted : list Insertion
}.

(** A graph is a handle on a store, with an identifier. *)
Record Graph : Type := {
  store : Store;
  identifier : Term
}.

(** [default_context] is the graph that receives triples; as it shares the
    store of the conjunctive graph it is kept as its identifier. *)
Record ConjunctiveGraph : Type := {
  cg_store : Store;
  cg_identifier : Term;
  default_context : Term
}.

(** Modelled from the spec: [ConjunctiveGraph.add] (not under src/): a quad
    is inserted with its own context, a triple goes to the default context. *)
Definition insertion_of (default : Term) (x : triple_or_quad) : Insertion :=
  match x with
  | Quad s p o c =>
      {| subject := s; predicate := p; object := o; context := c |}
  | Triple s p o =>
      {| subject := s; predicate := p; object := o; context := default |}
  end.

Definition add (cg : ConjunctiveGraph) (x : triple_or_quad)
  : ConjunctiveGraph :=
  {| cg_store :=
       {| context_aware := context_aware (cg_store cg);
          inserted :=
            inserted (cg_store cg) ++ [insertion_of (default_context cg) x] |};
     cg_identifier := cg_identifier cg;
     default_context := default_context cg |}.

(** ** The lines of the wire format

    [json.loads] belongs to Python's library: the parser takes it as the
    parameter [json_loads] below ([None] when it raises).  [wire_loads] is
    [json.loads] on the lines of the wire format, a JSON array of strings and
    nulls, read in one pass by a small automaton; it instantiates the
    parameter in the examples.  A line of another shape, or a string with a
    [\u] escape, is outside it and answered [None]. *)

Inductive wire_state : Type :=
| WStart
| WOpen
| WElem (acc : list pyval)
| WStr (acc : list pyval) (s : str)
| WEsc (acc : list pyval) (s : str)
| WNull (acc : list pyval) (k : nat)
| WAfter (acc : list pyval)
| WClosed (acc : list pyval)
| WFail.

Definition is_ws (c : char) : bool :=
  N.eqb c 32 || N.eqb c 9 || N.eqb c 10 || N.eqb c 13.

(** The character an escape letter stands for. *)
Definition unescape (c : char) : option char :=
  if N.eqb c 34 then Some 34%N
  else if N.eqb c 92 then Some 92%N
  else if N.eqb c 47 then Some 47%N
  else if N.eqb c 98 then Some 8%N
  else if N.eqb c 102 then Some 12%N
  else if N.eqb c 110 then Some 10%N
  else if N.eqb c 114 then Some 13%N
  else if N.eqb c 116 then Some 9%N
  else None.

(** Where an element may start: a string or [null]. *)
Definition wire_element (acc : list pyval) (c : char) : wire_state :=
  if N.eqb c 34 then WStr acc []
  else if N.eqb c 110 then WNull acc 1
  else WFail.

Definition wire_step (st : wire_state) (c : char) : wire_state :=
  match st with
  | WStart => if is_ws c then WStart else if N.eqb c 91 then WOpen else WFail
  | WOpen =>
      if is_ws c then WOpen
      else if N.eqb c 93 then WClosed []
      else wire_element [] c
  | WElem acc => if is_ws c then WElem acc else wire_element acc c
  | WStr acc s =>
      if N.eqb c 34 then WAfter (PyStr (rev s) :: acc)
      else if N.eqb c 92 then WEsc acc s
      else if N.ltb c 32 then WFail
      else WStr acc (c :: s)
  | WEsc acc s =>
      match unescape c with
      | Some c' => WStr acc (c' :: s)
      | None => WFail
      end
  | WNull acc k =>
      match k with
      | 1 => if N.eqb c 117 then WNull acc 2 else WFail
      | 2 => if N.eqb c 108 then WNull acc 3 else WFail
      | 3 => if N.eqb c 108 then WAfter (PyNone :: acc) else WFail
      | _ => WFail
      end
  | WAfter acc =>
      if is_ws c then WAfter acc
      else if N.eqb c 44 then WElem acc
      else if N.eqb c 93 then WClosed acc
      else WFail
  | WClosed acc => if is_ws c then WClosed acc else WFail
  | WFail => WFail
  end.

Definition wire_loads (line : str) : option pyval :=
  match fold_left wire_step line WStart with
  | WClosed acc => Some (PyList (rev acc))
  | _ => None
  end.

(** A line written with ['] for the double quote of JSON. *)
Definition json_text (s : string) : str :=
  map (fun c => if N.eqb c 39 then 34%N else c) (lit s).

(** ** The parser *)

(** A run of [parse] ends by returning, by raising, or by a call that leaves
    what the embedding covers: [_parse_hextuple] declares its record as
    [List[Union[str, None]]], and a decoded record that holds another kind
    of value (a number, a bool, a list, a dict) is outside that declaration.
    The embedding follows no such record: [OutsideAnnotation] says nothing
    of what the source does with it, be it an exception, or an insertion
    after which the loop goes on.  The outcomes [Returned] and [Raised] are
    those of runs in which every record handed over is as declared. *)
Inductive outcome : Type :=
| Returned
| Raised (e : exn)
| OutsideAnnotation.

(** What a run leaves: the store, how the run ended, and the lines the loop
    has not taken from its source. *)
Record Run : Type := {
  after : Store;
  ended : outcome;
  unread : list str
}.

(** One turn of the loop over the lines. *)
Inductive step : Type :=
| Next (cg : ConjunctiveGraph)
| Stop (o : outcome).

(** The sources [parse] tells apart: one with a [file] attribute, whose file
    is opened and read line by line ([None] when [open] raises); one with
    [_InputSource__bytefile.wrapped], given by the lines
    [wrapped.strip().splitlines()]; any other source.  A file that opens is
    given by all its lines: it is taken to be read and decoded to its end,
    and an exception raised while it is read has no counterpart here. *)
Inductive InputSource : Type :=
| FileInputSource (file : option (list str))
| StringInputSource (wrapped : list str)
| OtherInputSource.

(** The lines the loops of [parse] go over.  A source of another kind has
    none: [parse] does not look at what it holds. *)
Definition lines_of (source : InputSource) : list str :=
  match source with
  | FileInputSource (Some fp) => fp
  | StringInputSource wrapped => wrapped
  | _ => []
  end.

(** An element of a decoded record as [Union[str, None]]. *)
Definition str_or_None (x : pyval) : option (option str) :=
  match x with
  | PyNone => Some None
  | PyStr s => Some (Some s)
  | _ => None
  end.

(** A decoded record as the [List[Union[str, None]]] of [_parse_hextuple]. *)
Fixpoint annotated (l : list pyval) : option (list (option str)) :=
  match l with
  | [] => Some []
  | x :: l' =>
      match str_or_None x, annotated l' with
      | Some f, Some t => Some (f :: t)
      | _, _ => None
      end
  end.

(** The warning of [parse] about its [encoding] keyword: the encoding it
    names, when one is given that is not ["utf-8"].  It changes nothing in
    the run. *)
Definition encoding_warning (encoding : option str) : option str :=
  match encoding with
  | None => None
  | Some e => if str_eqb e (lit "utf-8") then None else Some e
  end.

Section HextuplesParser.

Variable json_loads : str -> option pyval.

Definition _load_json_line (line : str) : result (list pyval) :=
  match json_loads line with
  | None => Raise JSONDecodeError
  | Some ret1 =>
      xs <- py_iter ret1 ;;
      let ret2 :=
        map (fun x => if negb (is_empty_str x) then x else PyNone) xs in
      r <- py_getitem ret1 2 ;;
      if is_empty_str r then setitem ret2 2 (PyStr []) else Ok ret2
  end.

(** [tup[i]] inside the test of line 44: the operands of [or] are
    evaluated from left to right, and the first [None] raises. *)
Definition required (tup : list (option str)) (i : nat) : result str :=
  t <- getitem tup i ;;
  match t with
  | None => Raise (ValueError tup)
  | Some s => Ok s
  end.

Definition _parse_hextuple (cg : ConjunctiveGraph) (tup : list (option str))
  : result ConjunctiveGraph :=
  tup0 <- required tup 0 ;;
  tup1 <- required tup 1 ;;
  tup2 <- required tup 2 ;;
  tup3 <- required tup 3 ;;
  let s :=
    if startswith tup0 (lit "_")
    then BNode (replace tup0 (lit "_:") [])
    else URIRef tup0 in
  let p := URIRef tup1 in
  o <- (if str_eqb tup3 (lit "globalId") then Ok (URIRef tup2)
        else if str_eqb tup3 (lit "localId")
        then Ok (BNode (replace tup2 (lit "_:") []))
        else
          tup4 <- getitem tup 4 ;;
          match tup4 with
          | None => Ok (Literal tup2 (TypedLiteral (URIRef tup3)))
          | Some lang => Ok (Literal tup2 (LangLiteral lang))
          end) ;;
  tup5 <- getitem tup 5 ;;
  match tup5 with
  | Some g => Ok (add cg (Quad s p o (URIRef g)))
  | None => Ok (add cg (Triple s p o))
  end.

(** The body of the loops, [self._parse_hextuple(cg, self._load_json_line(l))]:
    the loop goes on with the graph the call leaves, or stops. *)
Definition loop_body (cg : ConjunctiveGraph) (l : str) : step :=
  match _load_json_line l with
  | Raise e => Stop (Raised e)
  | Ok ret2 =>
      match annotated ret2 with
      | None => Stop OutsideAnnotation
      | Some tup =>
          match _parse_hextuple cg tup with
          | Raise e => Stop (Raised e)
          | Ok cg' => Next cg'
          end
      end
  end.

(** The loops of lines 103-104 and 107-110: an exception leaves the loop
    with the lines after it unread. *)
Fixpoint for_lines (cg : ConjunctiveGraph) (lines : list str) : Run :=
  match lines with
  | [] => {| after := cg_store cg; ended := Returned; unread := [] |}
  | l :: rest =>
      match loop_body cg l with
      | Next cg' => for_lines cg' rest
      | Stop o => {| after := cg_store cg; ended := o; unread := rest |}
      end
  end.

(** The conjunctive graph of lines 92-93: on the store of [graph], with
    [graph] as its default context. *)
Definition conjunctive (graph : Graph) : ConjunctiveGraph :=
  {| cg_store := store graph;
     cg_identifier := identifier graph;
     default_context := identifier graph |}.

Definition parse (source : InputSource) (graph : Graph) : Run :=
  if negb (context_aware (store graph))
  then {| after := store graph; ended := Raised AssertionError;
          unread := lines_of source |}
  else
    let cg := conjunctive graph in
    match source with
    | FileInputSource (Some fp) => for_lines cg fp
    | FileInputSource None =>
        {| after := store graph; ended := Raised OSError; unread := [] |}
    | StringInputSource wrapped => for_lines cg wrapped
    | OtherInputSource =>
        {| after := store graph; ended := Returned; unread := [] |}
    end.

End HextuplesParser.

(** Line [l] produces statement [x]: whatever the graph holds, the loop body
    adds [x] to it and goes on. *)
Definition produces (json_loads : str -> option pyval)
  (l : str) (x : triple_or_quad) : Prop :=
  forall cg, loop_body json_loads cg l = Next (add cg x).

(** Line [l] raises [e], whatever the graph holds. *)
Definition raises (json_loads : str -> option pyval)
  (l : str) (e : exn) : Prop :=
  forall cg, loop_body json_loads cg l = Stop (Raised e).

(** A context-aware store with nothing in it, behind a graph: the graph of
    the examples. *)
Definition example_graph : Graph :=
  {| store := {| context_aware := true; inserted := [] |};
     identifier := URIRef (lit "urn:example:default") |}.

(** The lines of the examples: a typed literal in the default graph; a
    statement between two blank nodes; a record without a subject; a quad
    with a language-tagged literal; a record of seven positions; a subject
    that starts with an underscore and no colon; a local identifier with the
    blank-node prefix inside it. *)
Definition line_typed : str :=
  json_text "['http://a','http://b','v','http://www.w3.org/2001/XMLSchema#string','','']".
Definition line_blank : str :=
  json_text "['_:b1','http://b','_:b2','localId','','']".
Definition line_no_subject : str :=
  json_text "['', 'p', '', 'd', '', '']".
Definition line_lang : str :=
  json_text "['http://a','http://b','hi','http://www.w3.org/2001/XMLSchema#string','en','http://g/1']".
Definition line_seven : str :=
  json_text "['http://a','http://b','http://x/y','globalId','','','extra']".
Definition line_underscore : str :=
  json_text "['_b1','http://b','http://x/y','globalId','','']".
Definition line_inner_prefix : str :=
  json_text "['http://a','http://b','_:a_:b','localId','','']".

(** The record [line_no_subject] decodes to. *)
Definition no_subject : list (option str) :=
  [None; Some (lit "p"); Some []; Some (lit "d"); None; None].

Definition xsd_string : str :=
  lit "http://www.w3.org/2001/XMLSchema#string".

(** ** Lines of other shapes

    [value_loads] is [json.loads] on a few kinds of line more than
    [wire_loads]: a string without escapes, [null], [true], [false], the
    empty object and a non-negative integer, each written without white
    space around it; on any other line it answers as [wire_loads] does. *)

Fixpoint plain_string (s : str) : option str :=
  match s with
  | [] => None
  | c :: s' =>
      if N.eqb c 34 then match s' with [] => Some [] | _ :: _ => None end
      else if N.eqb c 92 || N.ltb c 32 then None
      else option_map (cons c) (plain_string s')
  end.

Definition is_integer (line : str) : bool :=
  match line with
  | [] => false
  | [c] => N.leb 48 c && N.leb c 57
  | c :: _ => N.leb 49 c && N.leb c 57 &&
              forallb (fun d => N.leb 48 d && N.leb d 57) line
  end.

Definition value_loads (line : str) : option pyval :=
  match line with
  | c :: s =>
      if N.eqb c 34 then option_map PyStr (plain_string s)
      else if str_eqb line (lit "null") then Some PyNone
      else if str_eqb line (lit "true") then Some (PyBool true)
      else if str_eqb line (lit "false") then Some (PyBool false)
      else if str_eqb line (lit "{}") then Some (PyDict [])
      else if is_integer line then Some (PyNumber line)
      else wire_loads line
  | [] => None
  end.

(** A field of the wire format after decoding, outside position 2: the
    empty string has become [None]. *)
Definition field (x : str) : option str :=
  match x with
  | [] => None
  | _ :: _ => Some x
  end.

(** The lines of more examples: a JSON string, a JSON number, a JSON
    object; a record with nulls where [line_typed] has empty strings; a
    global identifier that carries a language. *)
Definition line_string : str := json_text "'abcdefg'".
Definition line_number : str := lit "42".
Definition line_object : str := lit "{}".
Definition line_typed_nulls : str :=
  json_text "['http://a','http://b','v','http://www.w3.org/2001/XMLSchema#string',null,null]".
Definition line_global_lang : str :=
  json_text "['http://a','http://b','http://x/y','globalId','en','']".

(** * Properties *)

(** ** Strings *)

Lemma str_eqb_eq (a b : str) : str_eqb a b = true <-> a = b.
Proof.
  revert b; induction a as [|x a IH]; intros [|y b]; simpl;
    try (split; [discriminate | discriminate]); try tauto.
  rewrite andb_true_iff, N.eqb_eq, IH.
  split; [intros [-> ->]; reflexivity | intros H; inversion H; auto].
Qed.

Lemma str_eqb_neq (a b : str) : a <> b -> str_eqb a b = false.
Proof.
  intros H; destruct (str_eqb a b) eqn:E; [|reflexivity].
  apply str_eqb_eq in E; contradiction.
Qed.

(** A string in which [old] does not occur is left as it is. *)
Lemma replace_from_absent (old new s : str) :
  occurs old s = false -> replace_from old new 0 s = s.
Proof.
  induction s as [|c s IH]; [reflexivity|].
  cbn [occurs replace_from]; intros H.
  apply orb_false_iff in H as [H1 H2].
  rewrite H1, (IH H2); reflexivity.
Qed.

Lemma replace_absent (s old new : str) :
  occurs old s = false -> replace s old new = s.
Proof.
  destruct old as [|o old]; [destruct s; discriminate|].
  apply replace_from_absent.
Qed.

(** Stripping the blank-node prefix of ["_:" ++ r] leaves [r], provided
    ["_:"] does not occur again in [r]. *)
Lemma replace_prefix_once (r : str) :
  occurs (lit "_:") r = false ->
  replace (lit "_:" ++ r) (lit "_:") [] = r.
Proof.
  intros H. change (replace_from (lit "_:") [] 0 r = r).
  now apply replace_from_absent.
Qed.

Section Properties.

Variable json_loads : str -> option pyval.

(** C1: decoding a line that holds a JSON array turns the empty string
    into null at every position but 2 (so at 0, 1, 3, 4 and 5), and keeps
    position 2 as it was parsed: an empty string stays an empty string, a
    null stays null.  The array of the six strings empty, p, empty, d,
    empty, empty decodes to null, p, empty, d, null, null. *)
Theorem C1_empty_string_normalization :
  forall line ret1,
    json_loads line = Some (PyList ret1) ->
    3 <= length ret1 ->
    exists ret2,
      _load_json_line json_loads line = Ok ret2 /\
      length ret2 = length ret1 /\
      (forall i x, nth_error ret1 i = Some x ->
         nth_error ret2 i =
         Some (if i =? 2 then x else if is_empty_str x then PyNone else x)) /\
      (ret1 = [PyStr []; PyStr (lit "p"); PyStr []; PyStr (lit "d");
               PyStr []; PyStr []] ->
       ret2 = [PyNone; PyStr (lit "p"); PyStr []; PyStr (lit "d");
               PyNone; PyNone]).
Proof.
  intros line ret1 Hloads Hlen.
  destruct ret1 as [|a [|b [|c rest]]]; simpl in Hlen; try lia.
  unfold _load_json_line; rewrite Hloads.
  cbn [py_iter bind py_getitem getitem nth_error].
  set (f := fun x => if negb (is_empty_str x) then x else PyNone).
  assert (Hf : forall x, f x = if is_empty_str x then PyNone else x)
    by (intros x; unfold f; destruct (is_empty_str x); reflexivity).
  assert (Hnth : forall l i x, nth_error l i = Some x ->
                   nth_error (map f l) i = Some (f x))
    by (intros l i x H; rewrite nth_error_map, H; reflexivity).
  destruct (is_empty_str c) eqn:Ec.
  - exists (f a :: f b :: PyStr [] :: map f rest).
    split; [reflexivity|]. split; [simpl; now rewrite length_map|].
    split.
    + intros [|[|[|i]]] x; simpl; intros H.
      * inversion H; subst; now rewrite Hf.
      * inversion H; subst; now rewrite Hf.
      * inversion H; subst.
        destruct x as [| | |[|]| |]; try discriminate; reflexivity.
      * rewrite (Hnth _ _ _ H), Hf; reflexivity.
    + intros H; inversion H; subst; reflexivity.
  - exists (f a :: f b :: f c :: map f rest).
    split; [reflexivity|]. split; [simpl; now rewrite length_map|].
    split.
    + intros [|[|[|i]]] x; simpl; intros H.
      * inversion H; subst; now rewrite Hf.
      * inversion H; subst; now rewrite Hf.
      * inversion H; subst. now rewrite Hf, Ec.
      * rewrite (Hnth _ _ _ H), Hf; reflexivity.
    + intros H; inversion H; subst; discriminate.
Qed.

(** ** Term resolution *)

(** A record whose first four fields are present is resolved and emitted
    without an exception; extra fields after the sixth are not looked at. *)
Lemma parse_hextuple_validated cg s p v d lang g extra :
  _parse_hextuple cg
    (Some s :: Some p :: Some v :: Some d :: lang :: g :: extra) =
  Ok (add cg
    (let st := if startswith s (lit "_")
               then BNode (replace s (lit "_:") []) else URIRef s in
     let ot := if str_eqb d (lit "globalId") then URIRef v
               else if str_eqb d (lit "localId")
               then BNode (replace v (lit "_:") [])
               else match lang with
                    | None => Literal v (TypedLiteral (URIRef d))
                    | Some l => Literal v (LangLiteral l)
                    end in
     match g with
     | Some c => Quad st (URIRef p) ot (URIRef c)
     | None => Triple st (URIRef p) ot
     end)).
Proof.
  unfold _parse_hextuple, required; cbn [getitem nth_error bind].
  destruct (str_eqb d (lit "globalId")); [destruct g; reflexivity|].
  destruct (str_eqb d (lit "localId")); [destruct g; reflexivity|].
  destruct lang, g; reflexivity.
Qed.

Lemma subject_insertion_of dflt x :
  subject (insertion_of dflt x) =
  match x with Triple s _ _ | Quad s _ _ _ => s end.
Proof. destruct x; reflexivity. Qed.

Lemma object_insertion_of dflt x :
  object (insertion_of dflt x) =
  match x with Triple _ _ o | Quad _ _ o _ => o end.
Proof. destruct x; reflexivity. Qed.

(** C2 (amended): for every validated record the subject term is a
    BlankNode exactly when the subject string starts with the one
    character "_", and is the IRI of the unmodified string otherwise.  The
    identifier of the BlankNode is the subject itself when "_:" does not
    occur in it, and the remainder after the prefix when the subject is
    "_:" followed by a remainder in which "_:" does not occur. *)
Theorem C2_subject_term :
  forall cg s p v d lang g,
  exists x,
    _parse_hextuple cg [Some s; Some p; Some v; Some d; lang; g]
    = Ok (add cg x) /\
    (startswith s (lit "_") = false ->
     subject (insertion_of (default_context cg) x) = URIRef s) /\
    (startswith s (lit "_") = true ->
     exists b,
       subject (insertion_of (default_context cg) x) = BNode b /\
       (occurs (lit "_:") s = false -> b = s) /\
       (forall r, s = lit "_:" ++ r -> occurs (lit "_:") r = false -> b = r)).
Proof.
  intros cg s p v d lang g.
  eexists; split; [apply parse_hextuple_validated|].
  rewrite subject_insertion_of.
  destruct (startswith s (lit "_")) eqn:E; split; try discriminate.
  - intros _. exists (replace s (lit "_:") []).
    split; [destruct g; reflexivity|].
    split.
    + apply replace_absent.
    + intros r -> Hr. now apply replace_prefix_once.
  - intros _. destruct g; reflexivity.
Qed.

(** C4: for every validated record whose datatype is neither "globalId"
    nor "localId" the object is a Literal over the value field: tagged with
    the language, the datatype being ignored, when the language field is
    non-null; typed with the IRI of the datatype when it is null. *)
Theorem C4_literal_object :
  forall cg s p v d lang g,
    d <> lit "globalId" ->
    d <> lit "localId" ->
    exists x,
      _parse_hextuple cg [Some s; Some p; Some v; Some d; lang; g]
      = Ok (add cg x) /\
      object (insertion_of (default_context cg) x) =
      match lang with
      | Some l => Literal v (LangLiteral l)
      | None => Literal v (TypedLiteral (URIRef d))
      end.
Proof.
  intros cg s p v d lang g Hg Hl.
  eexists; split; [apply parse_hextuple_validated|].
  rewrite object_insertion_of.
  rewrite (str_eqb_neq _ _ Hg), (str_eqb_neq _ _ Hl).
  destruct lang, g; reflexivity.
Qed.

(** C7: for every validated record, a non-null graph field makes the
    statement a quad whose context is the IRI of that field; a null graph
    field makes it a triple, which goes to the default context, the graph
    the caller of [parse] supplied. *)
Theorem C7_context_routing :
  forall graph s p v d lang g,
  exists st ot,
    _parse_hextuple (conjunctive graph)
      [Some s; Some p; Some v; Some d; lang; g]
    = Ok (add (conjunctive graph)
            match g with
            | Some c => Quad st (URIRef p) ot (URIRef c)
            | None => Triple st (URIRef p) ot
            end) /\
    inserted (cg_store (add (conjunctive graph)
            match g with
            | Some c => Quad st (URIRef p) ot (URIRef c)
            | None => Triple st (URIRef p) ot
            end))
    = inserted (store graph) ++
      [{| subject := st; predicate := URIRef p; object := ot;
          context := match g with
                     | Some c => URIRef c
                     | None => identifier graph
                     end |}].
Proof.
  intros graph s p v d lang g.
  do 2 eexists; split; [apply parse_hextuple_validated|].
  destruct g; reflexivity.
Qed.

(** ** Validation and arity *)

Ltac split_record tup :=
  destruct tup as [|[?|] [|[?|] [|[?|] [|[?|] [|? [|? ?]]]]]].

(** C6: for every decoded record of six fields, term resolution raises the
    ValueError that carries the record if and only if one of the positions
    0 (subject), 1 (predicate), 2 (value), 3 (datatype) is null; when none
    of them is, the record is resolved and emitted whatever positions 4
    (language) and 5 (graph) hold, null or not. *)
Theorem C6_validation :
  forall cg tup,
    length tup = 6 ->
    (_parse_hextuple cg tup = Raise (ValueError tup) <->
     exists i, i < 4 /\ nth_error tup i = Some None) /\
    ((forall i, i < 4 -> nth_error tup i <> Some None) ->
     exists x, _parse_hextuple cg tup = Ok (add cg x)).
Proof.
  intros cg tup Hlen.
  split_record tup; simpl in Hlen; try lia;
    try rewrite parse_hextuple_validated;
    (split;
     [ split;
       [ intros H; try discriminate H;
         first [ exists 0; split; [lia | reflexivity]
               | exists 1; split; [lia | reflexivity]
               | exists 2; split; [lia | reflexivity]
               | exists 3; split; [lia | reflexivity] ]
       | intros [i [Hi H]];
         first [ reflexivity
               | destruct i as [|[|[|[|i]]]]; simpl in H;
                 solve [discriminate H | lia] ] ]
     | intros H;
       first [ eexists; reflexivity
             | exfalso;
               first [ now apply (H 0); [lia|]
                     | now apply (H 1); [lia|]
                     | now apply (H 2); [lia|]
                     | now apply (H 3); [lia|] ] ] ]).
Qed.

(** A record with a position missing is never emitted: looking up the
    missing position raises, unless a null before it already did. *)
Lemma parse_hextuple_short cg tup :
  length tup < 6 -> exists e, _parse_hextuple cg tup = Raise e.
Proof.
  intros Hlen.
  split_record tup; simpl in Hlen; try lia;
    unfold _parse_hextuple, required; cbn [getitem nth_error bind];
    repeat match goal with
           | |- context [if ?b then _ else _] => destruct b
           end;
    cbn [getitem nth_error bind];
    try match goal with
        | |- context [match ?l with Some _ => _ | None => _ end] => destruct l
        end;
    eexists; reflexivity.
Qed.

(** The exception of a record with a position missing: the IndexError of
    the missing position, or the ValueError of a null met before it. *)
Lemma parse_hextuple_short_kind cg tup :
  length tup < 6 ->
  _parse_hextuple cg tup = Raise IndexError \/
  _parse_hextuple cg tup = Raise (ValueError tup).
Proof.
  intros Hlen.
  split_record tup; simpl in Hlen; try lia;
    unfold _parse_hextuple, required; cbn [getitem nth_error bind];
    repeat match goal with
           | |- context [if ?b then _ else _] => destruct b
           end;
    cbn [getitem nth_error bind];
    try match goal with
        | |- context [match ?l with Some _ => _ | None => _ end] => destruct l
        end;
    first [left; reflexivity | right; reflexivity].
Qed.

(** Positions after the sixth change nothing in what is emitted. *)
Lemma parse_hextuple_extra cg tup extra cg' :
  length tup = 6 ->
  _parse_hextuple cg tup = Ok cg' ->
  _parse_hextuple cg (tup ++ extra) = Ok cg'.
Proof.
  intros Hlen.
  split_record tup; simpl in Hlen; try lia;
    try (unfold _parse_hextuple, required; cbn [getitem nth_error bind];
         discriminate).
  cbn [app]. now rewrite !parse_hextuple_validated.
Qed.

(** C5 (amended): decoding raises a JSONDecodeError when the line is not
    parseable, and an IndexError when the parsed array has fewer than 3
    elements; it does not check that there are 6: an array of 3 or more
    elements is decoded, with as many positions as it has.  A record with
    fewer than 6 positions is then stopped in term resolution, by a
    ValueError or an IndexError and before anything is inserted; of a
    record with more than 6 only the first six positions are used. *)
Theorem C5_decode_errors :
  (forall line,
     json_loads line = None ->
     _load_json_line json_loads line = Raise JSONDecodeError) /\
  (forall line ret1,
     json_loads line = Some (PyList ret1) ->
     length ret1 < 3 ->
     _load_json_line json_loads line = Raise IndexError) /\
  (forall line ret1,
     json_loads line = Some (PyList ret1) ->
     3 <= length ret1 ->
     exists ret2,
       _load_json_line json_loads line = Ok ret2 /\
       length ret2 = length ret1) /\
  (forall cg tup,
     length tup < 6 ->
     _parse_hextuple cg tup = Raise IndexError \/
     _parse_hextuple cg tup = Raise (ValueError tup)) /\
  (forall cg tup extra cg',
     length tup = 6 ->
     _parse_hextuple cg tup = Ok cg' ->
     _parse_hextuple cg (tup ++ extra) = Ok cg').
Proof.
  split; [|split; [|split; [|split]]].
  - intros line H. unfold _load_json_line. now rewrite H.
  - intros line ret1 H Hlen. unfold _load_json_line. rewrite H.
    destruct ret1 as [|a [|b [|c rest]]]; simpl in Hlen; try lia; reflexivity.
  - intros line ret1 H Hlen. unfold _load_json_line. rewrite H.
    destruct ret1 as [|a [|b [|c rest]]]; simpl in Hlen; try lia.
    cbn [py_iter bind py_getitem getitem nth_error].
    destruct (is_empty_str c); eexists; (split; [reflexivity|]);
      simpl; now rewrite length_map.
  - apply parse_hextuple_short_kind.
  - apply parse_hextuple_extra.
Qed.

(** ** The driver *)

(** C8: against a store that is not context-aware, [parse] fails on its
    assertion: the store is left as it was and every line of the source is
    still unread. *)
Theorem C8_context_aware_required :
  forall source graph,
    context_aware (store graph) = false ->
    parse json_loads source graph =
    {| after := store graph; ended := Raised AssertionError;
       unread := lines_of source |}.
Proof.
  intros source graph H. unfold parse. now rewrite H.
Qed.

(** On a context-aware store [parse] runs the loop over the lines of its
    source, when it has any. *)
Lemma parse_for_lines source graph l ls :
  context_aware (store graph) = true ->
  lines_of source = l :: ls ->
  parse json_loads source graph
  = for_lines json_loads (conjunctive graph) (l :: ls).
Proof.
  intros Hca Hl. unfold parse. rewrite Hca. cbn [negb].
  destruct source as [[fp|]|wrapped|]; simpl in Hl; try discriminate;
    now subst.
Qed.

(** Lines that each produce a statement take the loop to the lines after
    them, with these statements added in order. *)
Lemma for_lines_produces pre xs :
  Forall2 (produces json_loads) pre xs ->
  forall cg rest,
    for_lines json_loads cg (pre ++ rest)
    = for_lines json_loads (fold_left add xs cg) rest.
Proof.
  induction 1 as [|l x pre xs Hl _ IH]; intros cg rest; [reflexivity|].
  cbn [app for_lines fold_left]. rewrite (Hl cg). apply IH.
Qed.

Lemma inserted_fold_add xs :
  forall cg,
    inserted (cg_store (fold_left add xs cg)) =
    inserted (cg_store cg) ++ map (insertion_of (default_context cg)) xs.
Proof.
  induction xs as [|x xs IH]; intros cg; cbn [fold_left map].
  - now rewrite app_nil_r.
  - rewrite IH. cbn. now rewrite <- app_assoc.
Qed.

(** What a line does depends on the line alone, not on what the graph
    holds: it produces one statement, or it stops the loop. *)
Lemma loop_body_next cg l cg' :
  loop_body json_loads cg l = Next cg' ->
  exists x, cg' = add cg x /\ produces json_loads l x.
Proof.
  unfold produces, loop_body.
  destruct (_load_json_line json_loads l) as [ret2|e]; [|discriminate].
  destruct (annotated ret2) as [tup|]; [|discriminate].
  destruct (_parse_hextuple cg tup) as [cg1|e] eqn:E; [|discriminate].
  intros H; inversion H; subst cg1; clear H.
  assert (6 <= length tup) as Hlen.
  { destruct (Nat.lt_ge_cases (length tup) 6) as [Hs|]; [|assumption].
    destruct (parse_hextuple_short cg tup Hs) as [e He]. congruence. }
  revert E. split_record tup; simpl in Hlen; try lia;
    try (unfold _parse_hextuple, required; cbn [getitem nth_error bind];
         discriminate).
  rewrite parse_hextuple_validated. intros E; inversion E.
  eexists; split; [reflexivity|].
  intros cg2. now rewrite parse_hextuple_validated.
Qed.

Lemma loop_body_stop cg l e :
  loop_body json_loads cg l = Stop (Raised e) -> raises json_loads l e.
Proof.
  unfold raises, loop_body.
  destruct (_load_json_line json_loads l) as [ret2|e1];
    [|intros H cg2; exact H].
  destruct (annotated ret2) as [tup|]; [|discriminate].
  destruct (_parse_hextuple cg tup) as [cg1|e1] eqn:E; [discriminate|].
  intros H cg2; inversion H; subst e1; clear H.
  revert E. split_record tup;
    try (rewrite parse_hextuple_validated; discriminate);
    unfold _parse_hextuple, required; cbn [getitem nth_error bind];
    repeat match goal with
           | |- context [if ?b then _ else _] => destruct b
           end;
    cbn [getitem nth_error bind];
    try match goal with
        | |- context [match ?l with Some _ => _ | None => _ end] => destruct l
        end;
    cbn [bind]; intros E; inversion E; reflexivity.
Qed.

(** C9: parsing is fail-fast.  When the lines before line [bad] each
    produce their statement and [bad] raises [e], the run ends by raising
    [e] with every line after [bad] unread, so none of them is decoded,
    validated or emitted: the store is the one the lines before [bad]
    leave. *)
Theorem C9_fail_fast :
  forall source graph pre bad post xs e,
    context_aware (store graph) = true ->
    lines_of source = pre ++ bad :: post ->
    Forall2 (produces json_loads) pre xs ->
    raises json_loads bad e ->
    ended (parse json_loads source graph) = Raised e /\
    unread (parse json_loads source graph) = post /\
    after (parse json_loads source graph)
    = after (for_lines json_loads (conjunctive graph) pre).
Proof.
  intros source graph pre bad post xs e Hca Hl Hpre Hbad.
  assert (parse json_loads source graph
          = for_lines json_loads (conjunctive graph) (pre ++ bad :: post))
    as ->.
  { destruct (pre ++ bad :: post) as [|l ls] eqn:E.
    - destruct pre; discriminate.
    - now apply parse_for_lines. }
  pose proof (for_lines_produces pre xs Hpre (conjunctive graph) []) as Hp.
  rewrite app_nil_r in Hp. rewrite Hp.
  rewrite (for_lines_produces pre xs Hpre).
  cbn [for_lines]. rewrite (Hbad _). repeat split.
Qed.

(** C10: a failure in the middle of the stream undoes nothing.  When the
    lines before line [bad] each produce their statement and [bad] raises,
    the store the failed run leaves holds what it held before, followed by
    the statements of these lines, in order. *)
Theorem C10_no_rollback :
  forall source graph pre bad post xs e,
    context_aware (store graph) = true ->
    lines_of source = pre ++ bad :: post ->
    Forall2 (produces json_loads) pre xs ->
    raises json_loads bad e ->
    ended (parse json_loads source graph) = Raised e /\
    inserted (after (parse json_loads source graph)) =
    inserted (store graph) ++ map (insertion_of (identifier graph)) xs.
Proof.
  intros source graph pre bad post xs e Hca Hl Hpre Hbad.
  assert (parse json_loads source graph
          = for_lines json_loads (conjunctive graph) (pre ++ bad :: post))
    as ->.
  { destruct (pre ++ bad :: post) as [|l ls] eqn:E.
    - destruct pre; discriminate.
    - now apply parse_for_lines. }
  rewrite (for_lines_produces pre xs Hpre).
  cbn [for_lines]. rewrite (Hbad _). cbn [ended after].
  split; [reflexivity|]. apply inserted_fold_add.
Qed.

(** Every run of the loop that ends on an exception has this shape: a line
    raised it, and the lines before that one each produced their statement. *)
Lemma for_lines_raised lines :
  forall cg e,
    ended (for_lines json_loads cg lines) = Raised e ->
    exists pre bad post xs,
      lines = pre ++ bad :: post /\
      Forall2 (produces json_loads) pre xs /\
      raises json_loads bad e.
Proof.
  induction lines as [|l rest IH]; intros cg e; cbn [for_lines].
  - discriminate.
  - destruct (loop_body json_loads cg l) as [cg'|o] eqn:E.
    + intros H. destruct (IH cg' e H) as (pre & bad & post & xs & -> & Hp & Hb).
      destruct (loop_body_next _ _ _ E) as (x & _ & Hx).
      exists (l :: pre), bad, post, (x :: xs). repeat split; auto.
    + cbn [ended]. intros ->.
      exists [], l, rest, []. repeat split; auto.
      now apply (loop_body_stop cg).
Qed.

End Properties.

(** ** The examples of the wire format *)

Example wire_loads_no_subject :
  wire_loads line_no_subject
  = Some (PyList [PyStr []; PyStr (lit "p"); PyStr []; PyStr (lit "d");
                  PyStr []; PyStr []]).
Proof. vm_compute. reflexivity. Qed.

(** The two lines of the end-to-end scenario give exactly two statements,
    both in the default graph. *)
Example end_to_end :
  parse wire_loads (StringInputSource [line_typed; line_blank]) example_graph
  = {| after :=
         {| context_aware := true;
            inserted :=
              [ {| subject := URIRef (lit "http://a");
                   predicate := URIRef (lit "http://b");
                   object := Literal (lit "v") (TypedLiteral (URIRef xsd_string));
                   context := identifier example_graph |};
                {| subject := BNode (lit "b1");
                   predicate := URIRef (lit "http://b");
                   object := BNode (lit "b2");
                   context := identifier example_graph |} ] |};
       ended := Returned;
       unread := [] |}.
Proof. vm_compute. reflexivity. Qed.

(** The language tag wins over the datatype, and the graph field names the
    context of the quad. *)
Example language_and_context :
  parse wire_loads (FileInputSource (Some [line_lang])) example_graph
  = {| after :=
         {| context_aware := true;
            inserted :=
              [ {| subject := URIRef (lit "http://a");
                   predicate := URIRef (lit "http://b");
                   object := Literal (lit "hi") (LangLiteral (lit "en"));
                   context := URIRef (lit "http://g/1") |} ] |};
       ended := Returned;
       unread := [] |}.
Proof. vm_compute. reflexivity. Qed.

(** ** The claims on concrete lines *)

Lemma C1_witness :
  wire_loads line_no_subject
  = Some (PyList [PyStr []; PyStr (lit "p"); PyStr []; PyStr (lit "d");
                  PyStr []; PyStr []]) /\
  3 <= 6 /\
  exists ret2,
    _load_json_line wire_loads line_no_subject = Ok ret2 /\
    length ret2 = 6 /\
    (forall i x,
       nth_error [PyStr []; PyStr (lit "p"); PyStr []; PyStr (lit "d");
                  PyStr []; PyStr []] i = Some x ->
       nth_error ret2 i =
       Some (if i =? 2 then x else if is_empty_str x then PyNone else x)) /\
    ([PyStr []; PyStr (lit "p"); PyStr []; PyStr (lit "d"); PyStr []; PyStr []]
     = [PyStr []; PyStr (lit "p"); PyStr []; PyStr (lit "d"); PyStr []; PyStr []] ->
     ret2 = [PyNone; PyStr (lit "p"); PyStr []; PyStr (lit "d"); PyNone; PyNone]).
Proof.
  split; [vm_compute; reflexivity|]. split; [lia|].
  apply (C1_empty_string_normalization wire_loads line_no_subject
           [PyStr []; PyStr (lit "p"); PyStr []; PyStr (lit "d");
            PyStr []; PyStr []]).
  - vm_compute; reflexivity.
  - simpl; lia.
Defined.

(** A subject that starts with an underscore but not with the two-character
    prefix is resolved as a BlankNode, not as the IRI of the string. *)
Lemma C2_underscore_subject :
  startswith (lit "_b1") (lit "_:") = false /\
  parse wire_loads (StringInputSource [line_underscore]) example_graph
  = {| after :=
         {| context_aware := true;
            inserted :=
              [ {| subject := BNode (lit "_b1");
                   predicate := URIRef (lit "http://b");
                   object := URIRef (lit "http://x/y");
                   context := identifier example_graph |} ] |};
       ended := Returned;
       unread := [] |}.
Proof. split; vm_compute; reflexivity. Qed.

Lemma C2_witness :
  exists x,
    _parse_hextuple (conjunctive example_graph)
      [Some (lit "_:b1"); Some (lit "http://b"); Some (lit "v");
       Some xsd_string; None; None]
    = Ok (add (conjunctive example_graph) x) /\
    subject (insertion_of (identifier example_graph) x) = BNode (lit "b1").
Proof.
  destruct (C2_subject_term (conjunctive example_graph)
              (lit "_:b1") (lit "http://b") (lit "v") xsd_string None None)
    as (x & Hx & _ & Hb).
  destruct (Hb eq_refl) as (b & Hs & _ & Hr).
  exists x. split; [exact Hx|].
  rewrite (Hr (lit "b1") eq_refl eq_refl) in Hs. exact Hs.
Defined.

(** C3, at a local identifier that holds the blank-node prefix a second time:
    the object is the BlankNode "ab", every occurrence of the prefix being
    removed, where stripping the leading prefix leaves "a_:b". *)
Theorem C3_localId_inner_prefix :
  parse wire_loads (StringInputSource [line_inner_prefix]) example_graph
  = {| after :=
         {| context_aware := true;
            inserted :=
              [ {| subject := URIRef (lit "http://a");
                   predicate := URIRef (lit "http://b");
                   object := BNode (lit "ab");
                   context := identifier example_graph |} ] |};
       ended := Returned;
       unread := [] |}.
Proof. vm_compute. reflexivity. Qed.

Lemma C4_witness :
  xsd_string <> lit "globalId" /\
  xsd_string <> lit "localId" /\
  exists x,
    _parse_hextuple (conjunctive example_graph)
      [Some (lit "http://a"); Some (lit "http://b"); Some (lit "hi");
       Some xsd_string; Some (lit "en"); None]
    = Ok (add (conjunctive example_graph) x) /\
    object (insertion_of (default_context (conjunctive example_graph)) x)
    = Literal (lit "hi") (LangLiteral (lit "en")).
Proof.
  split; [intros H; vm_compute in H; discriminate H|].
  split; [intros H; vm_compute in H; discriminate H|].
  apply (C4_literal_object (conjunctive example_graph)
           (lit "http://a") (lit "http://b") (lit "hi") xsd_string
           (Some (lit "en")) None).
  - intros H; vm_compute in H; discriminate H.
  - intros H; vm_compute in H; discriminate H.
Defined.

(** A line whose array has seven elements is decoded, and its statement is
    inserted: no exception is raised for the seventh position. *)
Lemma C5_seven_positions :
  wire_loads line_seven
  = Some (PyList [PyStr (lit "http://a"); PyStr (lit "http://b");
                  PyStr (lit "http://x/y"); PyStr (lit "globalId");
                  PyStr []; PyStr []; PyStr (lit "extra")]) /\
  _load_json_line wire_loads line_seven
  = Ok [PyStr (lit "http://a"); PyStr (lit "http://b");
        PyStr (lit "http://x/y"); PyStr (lit "globalId");
        PyNone; PyNone; PyStr (lit "extra")] /\
  parse wire_loads (StringInputSource [line_seven]) example_graph
  = {| after :=
         {| context_aware := true;
            inserted :=
              [ {| subject := URIRef (lit "http://a");
                   predicate := URIRef (lit "http://b");
                   object := URIRef (lit "http://x/y");
                   context := identifier example_graph |} ] |};
       ended := Returned;
       unread := [] |}.
Proof. repeat split; vm_compute; reflexivity. Qed.

Lemma C5_witness :
  wire_loads line_seven
  = Some (PyList [PyStr (lit "http://a"); PyStr (lit "http://b");
                  PyStr (lit "http://x/y"); PyStr (lit "globalId");
                  PyStr []; PyStr []; PyStr (lit "extra")]) /\
  3 <= 7 /\
  (exists ret2,
     _load_json_line wire_loads line_seven = Ok ret2 /\ length ret2 = 7) /\
  length [Some (lit "http://a"); Some (lit "http://b");
          Some (lit "http://x/y"); Some (lit "globalId"); None] < 6 /\
  (_parse_hextuple (conjunctive example_graph)
     [Some (lit "http://a"); Some (lit "http://b");
      Some (lit "http://x/y"); Some (lit "globalId"); None]
   = Raise IndexError \/
   _parse_hextuple (conjunctive example_graph)
     [Some (lit "http://a"); Some (lit "http://b");
      Some (lit "http://x/y"); Some (lit "globalId"); None]
   = Raise (ValueError
              [Some (lit "http://a"); Some (lit "http://b");
               Some (lit "http://x/y"); Some (lit "globalId"); None])).
Proof.
  destruct (C5_decode_errors wire_loads) as (_ & _ & H3 & H4 & _).
  split; [vm_compute; reflexivity|]. split; [lia|].
  split.
  - apply (H3 line_seven
             [PyStr (lit "http://a"); PyStr (lit "http://b");
              PyStr (lit "http://x/y"); PyStr (lit "globalId");
              PyStr []; PyStr []; PyStr (lit "extra")]).
    + vm_compute; reflexivity.
    + simpl; lia.
  - split; [cbn; lia|].
    apply (H4 (conjunctive example_graph)
             [Some (lit "http://a"); Some (lit "http://b");
              Some (lit "http://x/y"); Some (lit "globalId"); None]).
    cbn; lia.
Defined.

Lemma C6_witness :
  length no_subject = 6 /\
  (_parse_hextuple (conjunctive example_graph)
     no_subject
   = Raise (ValueError no_subject)
   <-> exists i, i < 4 /\
         nth_error no_subject i
         = Some None) /\
  ((forall i, i < 4 ->
      nth_error no_subject i
      <> Some None) ->
   exists x,
     _parse_hextuple (conjunctive example_graph)
       no_subject
     = Ok (add (conjunctive example_graph) x)).
Proof.
  split; [reflexivity|].
  apply (C6_validation (conjunctive example_graph)
           no_subject).
  reflexivity.
Defined.

Lemma C7_witness :
  exists st ot,
    _parse_hextuple (conjunctive example_graph)
      [Some (lit "http://a"); Some (lit "http://b"); Some (lit "hi");
       Some xsd_string; Some (lit "en"); Some (lit "http://g/1")]
    = Ok (add (conjunctive example_graph)
            (Quad st (URIRef (lit "http://b")) ot (URIRef (lit "http://g/1")))) /\
    inserted (cg_store (add (conjunctive example_graph)
            (Quad st (URIRef (lit "http://b")) ot (URIRef (lit "http://g/1")))))
    = inserted (store example_graph) ++
      [{| subject := st; predicate := URIRef (lit "http://b"); object := ot;
          context := URIRef (lit "http://g/1") |}].
Proof.
  exact (C7_context_routing example_graph
           (lit "http://a") (lit "http://b") (lit "hi") xsd_string
           (Some (lit "en")) (Some (lit "http://g/1"))).
Defined.

(** The graph of the examples on a store that is not context-aware. *)
Lemma C8_witness :
  context_aware {| context_aware := false; inserted := [] |} = false /\
  parse wire_loads (StringInputSource [line_typed; line_blank])
    {| store := {| context_aware := false; inserted := [] |};
       identifier := identifier example_graph |}
  = {| after := {| context_aware := false; inserted := [] |};
       ended := Raised AssertionError;
       unread := [line_typed; line_blank] |}.
Proof.
  split; [reflexivity|].
  apply (C8_context_aware_required wire_loads
           (StringInputSource [line_typed; line_blank])
           {| store := {| context_aware := false; inserted := [] |};
              identifier := identifier example_graph |}).
  reflexivity.
Defined.

Lemma C9_witness :
  context_aware (store example_graph) = true /\
  lines_of (StringInputSource [line_typed; line_no_subject; line_blank])
  = [line_typed] ++ line_no_subject :: [line_blank] /\
  Forall2 (produces wire_loads) [line_typed]
    [Triple (URIRef (lit "http://a")) (URIRef (lit "http://b"))
       (Literal (lit "v") (TypedLiteral (URIRef xsd_string)))] /\
  raises wire_loads line_no_subject
    (ValueError no_subject) /\
  ended (parse wire_loads
           (StringInputSource [line_typed; line_no_subject; line_blank])
           example_graph)
  = Raised (ValueError no_subject) /\
  unread (parse wire_loads
            (StringInputSource [line_typed; line_no_subject; line_blank])
            example_graph)
  = [line_blank] /\
  after (parse wire_loads
           (StringInputSource [line_typed; line_no_subject; line_blank])
           example_graph)
  = after (for_lines wire_loads (conjunctive example_graph) [line_typed]).
Proof.
  assert (Hpre : Forall2 (produces wire_loads) [line_typed]
            [Triple (URIRef (lit "http://a")) (URIRef (lit "http://b"))
               (Literal (lit "v") (TypedLiteral (URIRef xsd_string)))])
    by (constructor; [intros cg; vm_compute; reflexivity | constructor]).
  assert (Hbad : raises wire_loads line_no_subject
            (ValueError no_subject))
    by (intros cg; vm_compute; reflexivity).
  split; [reflexivity|]. split; [reflexivity|].
  split; [exact Hpre|]. split; [exact Hbad|].
  exact (C9_fail_fast wire_loads
           (StringInputSource [line_typed; line_no_subject; line_blank])
           example_graph [line_typed] line_no_subject [line_blank] _ _
           eq_refl eq_refl Hpre Hbad).
Defined.

Lemma C10_witness :
  context_aware (store example_graph) = true /\
  lines_of (FileInputSource (Some [line_typed; line_blank; line_no_subject]))
  = [line_typed; line_blank] ++ line_no_subject :: [] /\
  Forall2 (produces wire_loads) [line_typed; line_blank]
    [Triple (URIRef (lit "http://a")) (URIRef (lit "http://b"))
       (Literal (lit "v") (TypedLiteral (URIRef xsd_string)));
     Triple (BNode (lit "b1")) (URIRef (lit "http://b")) (BNode (lit "b2"))] /\
  raises wire_loads line_no_subject
    (ValueError no_subject) /\
  ended (parse wire_loads
           (FileInputSource (Some [line_typed; line_blank; line_no_subject]))
           example_graph)
  = Raised (ValueError no_subject) /\
  inserted (after (parse wire_loads
           (FileInputSource (Some [line_typed; line_blank; line_no_subject]))
           example_graph))
  = inserted (store example_graph) ++
    map (insertion_of (identifier example_graph))
      [Triple (URIRef (lit "http://a")) (URIRef (lit "http://b"))
         (Literal (lit "v") (TypedLiteral (URIRef xsd_string)));
       Triple (BNode (lit "b1")) (URIRef (lit "http://b")) (BNode (lit "b2"))].
Proof.
  assert (Hpre : Forall2 (produces wire_loads) [line_typed; line_blank]
            [Triple (URIRef (lit "http://a")) (URIRef (lit "http://b"))
               (Literal (lit "v") (TypedLiteral (URIRef xsd_string)));
             Triple (BNode (lit "b1")) (URIRef (lit "http://b"))
               (BNode (lit "b2"))])
    by (repeat constructor; intros cg; vm_compute; reflexivity).
  assert (Hbad : raises wire_loads line_no_subject
            (ValueError no_subject))
    by (intros cg; vm_compute; reflexivity).
  split; [reflexivity|]. split; [reflexivity|].
  split; [exact Hpre|]. split; [exact Hbad|].
  exact (C10_no_rollback wire_loads
           (FileInputSource (Some [line_typed; line_blank; line_no_subject]))
           example_graph [line_typed; line_blank] line_no_subject [] _ _
           eq_refl eq_refl Hpre Hbad).
Defined.

(** * Further properties of the parser *)

Example value_loads_examples :
  value_loads line_string = Some (PyStr (lit "abcdefg")) /\
  value_loads line_number = Some (PyNumber (lit "42")) /\
  value_loads line_object = Some (PyDict []) /\
  value_loads line_typed = wire_loads line_typed.
Proof. repeat split; vm_compute; reflexivity. Qed.

Section Runs.

Variable json_loads : str -> option pyval.

(** The loop body never stops the loop as if it had returned. *)
Lemma loop_body_not_returned cg l :
  loop_body json_loads cg l <> Stop Returned.
Proof.
  unfold loop_body.
  destruct (_load_json_line json_loads l) as [ret2|e]; [|discriminate].
  destruct (annotated ret2) as [tup|]; [|discriminate].
  destruct (_parse_hextuple cg tup); discriminate.
Qed.

(** A line stops the loop in the same way whatever the graph holds. *)
Lemma loop_body_stop_any cg l o :
  loop_body json_loads cg l = Stop o ->
  forall cg2, loop_body json_loads cg2 l = Stop o.
Proof.
  destruct o as [|e|].
  - intros H. now apply loop_body_not_returned in H.
  - intros H. now apply (loop_body_stop json_loads cg).
  - unfold loop_body.
    destruct (_load_json_line json_loads l) as [ret2|e]; [|discriminate].
    destruct (annotated ret2) as [tup|]; [intros H|intros _ cg2; reflexivity].
    destruct (_parse_hextuple cg tup); discriminate.
Qed.

Lemma for_lines_grows lines :
  forall cg,
  exists added,
    inserted (after (for_lines json_loads cg lines))
    = inserted (cg_store cg) ++ added /\
    context_aware (after (for_lines json_loads cg lines))
    = context_aware (cg_store cg).
Proof.
  induction lines as [|l rest IH]; intros cg; cbn [for_lines].
  - exists []. now rewrite app_nil_r.
  - destruct (loop_body json_loads cg l) as [cg'|o] eqn:E.
    + destruct (loop_body_next json_loads _ _ _ E) as (x & -> & _).
      destruct (IH (add cg x)) as (added & Hi & Hc).
      exists (insertion_of (default_context cg) x :: added).
      rewrite Hi, Hc. cbn. now rewrite <- app_assoc.
    + exists []. now rewrite app_nil_r.
Qed.

(** X1: a run of [parse] never removes, changes or reorders what the store
    already holds, whatever the source and however the run ends: the store
    it leaves is the former one followed by the insertions of the run, and
    its context-aware flag is unchanged. *)
Theorem X1_store_only_grows :
  forall source graph,
  exists added,
    inserted (after (parse json_loads source graph))
    = inserted (store graph) ++ added /\
    context_aware (after (parse json_loads source graph))
    = context_aware (store graph).
Proof.
  intros source graph. unfold parse.
  destruct (negb (context_aware (store graph))).
  - exists []. now rewrite app_nil_r.
  - destruct source as [[fp|]|wrapped|];
      try apply (for_lines_grows _ (conjunctive graph));
      exists []; now rewrite app_nil_r.
Qed.

Lemma for_lines_returned lines :
  forall cg,
    ended (for_lines json_loads cg lines) = Returned ->
    unread (for_lines json_loads cg lines) = [] /\
    exists xs,
      Forall2 (produces json_loads) lines xs /\
      inserted (after (for_lines json_loads cg lines))
      = inserted (cg_store cg) ++ map (insertion_of (default_context cg)) xs.
Proof.
  induction lines as [|l rest IH]; intros cg; cbn [for_lines].
  - intros _. split; [reflexivity|]. exists []. split; [constructor|].
    cbn. now rewrite app_nil_r.
  - destruct (loop_body json_loads cg l) as [cg'|o] eqn:E.
    + destruct (loop_body_next json_loads _ _ _ E) as (x & -> & Hx).
      intros H. destruct (IH _ H) as (Hu & xs & Hxs & Hi).
      split; [exact Hu|]. exists (x :: xs). split; [now constructor|].
      rewrite Hi. cbn. now rewrite <- app_assoc.
    + cbn [ended]. intros ->. now apply loop_body_not_returned in E.
Qed.

(** X2: when [parse] returns from a source it reads lines from, a file or
    a text, every line has been read and each line has produced its own
    statement: the store holds what it held before, followed by these
    statements, one per line and in the order of the lines. *)
Theorem X2_one_statement_per_line :
  forall source graph lines,
    source = FileInputSource (Some lines) \/ source = StringInputSource lines ->
    ended (parse json_loads source graph) = Returned ->
    unread (parse json_loads source graph) = [] /\
    exists xs,
      Forall2 (produces json_loads) lines xs /\
      inserted (after (parse json_loads source graph))
      = inserted (store graph) ++ map (insertion_of (identifier graph)) xs.
Proof.
  intros source graph lines Hsrc. unfold parse.
  destruct (negb (context_aware (store graph))); [discriminate|].
  destruct Hsrc as [-> | ->];
    apply (for_lines_returned lines (conjunctive graph)).
Qed.

Lemma for_lines_raised_at lines :
  forall cg e,
    ended (for_lines json_loads cg lines) = Raised e ->
    exists pre bad xs,
      lines = pre ++ bad :: unread (for_lines json_loads cg lines) /\
      Forall2 (produces json_loads) pre xs /\
      raises json_loads bad e /\
      inserted (after (for_lines json_loads cg lines))
      = inserted (cg_store cg) ++ map (insertion_of (default_context cg)) xs.
Proof.
  induction lines as [|l rest IH]; intros cg e; cbn [for_lines].
  - discriminate.
  - destruct (loop_body json_loads cg l) as [cg'|o] eqn:E.
    + destruct (loop_body_next json_loads _ _ _ E) as (x & -> & Hx).
      intros H. destruct (IH _ _ H) as (pre & bad & xs & Hl & Hp & Hb & Hi).
      exists (l :: pre), bad, (x :: xs).
      split; [cbn; now rewrite <- Hl|]. split; [now constructor|].
      split; [exact Hb|]. rewrite Hi. cbn. now rewrite <- app_assoc.
    + cbn [ended]. intros ->. exists [], l, []. cbn.
      split; [reflexivity|]. split; [constructor|].
      split; [now apply (loop_body_stop json_loads cg)|].
      now rewrite app_nil_r.
Qed.

(** X3: when [parse], on a context-aware store and a source given as text,
    ends by raising [e], it stopped at one line: that line raises [e], the
    lines after it are exactly the unread ones, and each line before it has
    produced its own statement; the store holds what it held before,
    followed by these statements in the order of the lines. *)
Theorem X3_stopped_run :
  forall lines graph e,
    context_aware (store graph) = true ->
    ended (parse json_loads (StringInputSource lines) graph) = Raised e ->
    exists pre bad xs,
      lines
      = pre ++ bad :: unread (parse json_loads (StringInputSource lines) graph) /\
      Forall2 (produces json_loads) pre xs /\
      raises json_loads bad e /\
      inserted (after (parse json_loads (StringInputSource lines) graph))
      = inserted (store graph) ++ map (insertion_of (identifier graph)) xs.
Proof.
  intros lines graph e Hca. unfold parse. rewrite Hca. cbn [negb].
  apply (for_lines_raised_at lines (conjunctive graph)).
Qed.

Lemma for_lines_app l1 l2 :
  forall cg,
    ended (for_lines json_loads cg l1) = Returned ->
    for_lines json_loads cg (l1 ++ l2)
    = for_lines json_loads
        {| cg_store := after (for_lines json_loads cg l1);
           cg_identifier := cg_identifier cg;
           default_context := default_context cg |} l2.
Proof.
  induction l1 as [|l rest IH]; intros cg; cbn [for_lines app].
  - intros _. now destruct cg.
  - destruct (loop_body json_loads cg l) as [cg'|o] eqn:E.
    + destruct (loop_body_next json_loads _ _ _ E) as (x & -> & _).
      intros H. now rewrite (IH _ H).
    + cbn [ended]. intros ->. now apply loop_body_not_returned in E.
Qed.

(** X4: parsing composes over the stream.  When the lines [l1] are parsed
    to the end, parsing [l1] followed by [l2] in one call is parsing [l2]
    into the same graph on the store the first call left: same store, same
    outcome, same unread lines. *)
Theorem X4_parse_in_two_calls :
  forall graph l1 l2,
    context_aware (store graph) = true ->
    ended (parse json_loads (StringInputSource l1) graph) = Returned ->
    parse json_loads (StringInputSource (l1 ++ l2)) graph
    = parse json_loads (StringInputSource l2)
        {| store := after (parse json_loads (StringInputSource l1) graph);
           identifier := identifier graph |}.
Proof.
  intros graph l1 l2 Hca. unfold parse. rewrite Hca. cbn [negb store].
  destruct (for_lines_grows l1 (conjunctive graph)) as (added & _ & Hc).
  rewrite Hc. cbn [conjunctive cg_store]. rewrite Hca. cbn [negb].
  intros H. now rewrite (for_lines_app l1 l2 _ H).
Qed.

Lemma for_lines_any_store lines :
  forall cg1 cg2,
    default_context cg1 = default_context cg2 ->
    exists added,
      inserted (after (for_lines json_loads cg1 lines))
      = inserted (cg_store cg1) ++ added /\
      inserted (after (for_lines json_loads cg2 lines))
      = inserted (cg_store cg2) ++ added /\
      ended (for_lines json_loads cg1 lines)
      = ended (for_lines json_loads cg2 lines) /\
      unread (for_lines json_loads cg1 lines)
      = unread (for_lines json_loads cg2 lines).
Proof.
  induction lines as [|l rest IH]; intros cg1 cg2 Hd; cbn [for_lines].
  - exists []. now rewrite !app_nil_r.
  - destruct (loop_body json_loads cg1 l) as [cg'|o] eqn:E.
    + destruct (loop_body_next json_loads _ _ _ E) as (x & -> & Hx).
      rewrite (Hx cg2).
      destruct (IH (add cg1 x) (add cg2 x) Hd) as (added & H1 & H2 & He & Hu).
      exists (insertion_of (default_context cg1) x :: added).
      rewrite H1, H2, He, Hu. cbn. rewrite <- !app_assoc, Hd. now repeat split.
    + rewrite (loop_body_stop_any _ _ _ E cg2).
      exists []. now rewrite !app_nil_r.
Qed.

(** X5: the parser keeps no state from the store.  On two context-aware
    stores behind graphs of the same identifier, the same source ends the
    run in the same way, leaves the same lines unread and appends the same
    insertions, whatever the two stores held before. *)
Theorem X5_run_independent_of_store :
  forall source g1 g2,
    context_aware (store g1) = true ->
    context_aware (store g2) = true ->
    identifier g1 = identifier g2 ->
    exists added,
      inserted (after (parse json_loads source g1))
      = inserted (store g1) ++ added /\
      inserted (after (parse json_loads source g2))
      = inserted (store g2) ++ added /\
      ended (parse json_loads source g1) = ended (parse json_loads source g2) /\
      unread (parse json_loads source g1) = unread (parse json_loads source g2).
Proof.
  intros source g1 g2 H1 H2 Hid. unfold parse. rewrite H1, H2. cbn [negb].
  destruct source as [[fp|]|wrapped|];
    try apply (for_lines_any_store _ (conjunctive g1) (conjunctive g2) Hid);
    exists []; now rewrite !app_nil_r.
Qed.

End Runs.

Section Decoding.

Variable json_loads : str -> option pyval.

Lemma map_keep_chars (s : str) :
  map (fun x => if negb (is_empty_str x) then x else PyNone)
    (map (fun c => PyStr [c]) s)
  = map (fun c => PyStr [c]) s.
Proof. rewrite map_map. now apply map_ext. Qed.

(** X6: a line that holds a JSON string is not rejected for not being an
    array: with 3 characters or more it is decoded into the list of its
    one-character strings, and only a string of fewer than 3 characters
    raises, an IndexError. *)
Theorem X6_json_string_line :
  forall line s,
    json_loads line = Some (PyStr s) ->
    (3 <= length s ->
     _load_json_line json_loads line = Ok (map (fun c => PyStr [c]) s)) /\
    (length s < 3 -> _load_json_line json_loads line = Raise IndexError).
Proof.
  intros line s H. unfold _load_json_line. rewrite H.
  cbn [py_iter bind py_getitem]. rewrite map_keep_chars.
  destruct s as [|a [|b [|c rest]]]; cbn; split; intros Hl;
    try lia; reflexivity.
Qed.

(** X7: a line that holds valid JSON of another kind stops the run: a
    number, a boolean or null raises a TypeError, an object a KeyError, and
    nothing is inserted for it. *)
Theorem X7_json_of_another_kind :
  forall line v,
    json_loads line = Some v ->
    (forall xs, v <> PyList xs) ->
    (forall s, v <> PyStr s) ->
    raises json_loads line
      (match v with PyDict _ => KeyError | _ => TypeError end).
Proof.
  intros line v H Hl Hs cg. unfold loop_body, _load_json_line. rewrite H.
  destruct v as [| | |s|xs|items]; try reflexivity.
  - now contradiction (Hs s).
  - now contradiction (Hl xs).
Qed.

Lemma nth_error_update_other {A : Type} (l : list A) (j i : nat) (v : A) :
  i <> j -> nth_error (update l j v) i = nth_error l i.
Proof.
  revert j i; induction l as [|x l IH]; intros [|j] [|i] H; cbn;
    try reflexivity; try (now contradiction H).
  apply IH. lia.
Qed.

(** X8: in a decoded record no position other than 2 holds the empty
    string, whatever the line was: term resolution never sees an empty
    subject, predicate, datatype, language or graph. *)
Theorem X8_no_empty_field_left :
  forall line ret2 i,
    _load_json_line json_loads line = Ok ret2 ->
    i <> 2 ->
    nth_error ret2 i <> Some (PyStr []).
Proof.
  intros line ret2 i. unfold _load_json_line.
  destruct (json_loads line) as [ret1|]; [|discriminate].
  destruct (py_iter ret1) as [xs|e] eqn:Ei; [|discriminate]. cbn [bind].
  destruct (py_getitem ret1 2) as [r|e]; [|discriminate]. cbn [bind].
  set (f := fun x => if negb (is_empty_str x) then x else PyNone).
  assert (Hf : nth_error (map f xs) i <> Some (PyStr [])).
  { rewrite nth_error_map. destruct (nth_error xs i) as [x|]; [|discriminate].
    cbn. unfold f. destruct x as [| | |[|]| |]; discriminate. }
  destruct (is_empty_str r).
  - unfold setitem. destruct (2 <? length (map f xs)); [|discriminate].
    intros H Hi; inversion H; subst.
    now rewrite nth_error_update_other.
  - intros H _; inversion H; subst. exact Hf.
Qed.

(** X9: outside position 2 the decoder cannot tell an empty string from
    null.  Two lines whose arrays agree at position 2, and at every other
    position once empty strings are read as null, are treated alike by the
    loop: same exception or same statement. *)
Theorem X9_empty_string_or_null :
  forall l1 l2 r1 r2,
    json_loads l1 = Some (PyList r1) ->
    json_loads l2 = Some (PyList r2) ->
    nth_error r1 2 = nth_error r2 2 ->
    map (fun x => if is_empty_str x then PyNone else x) r1
    = map (fun x => if is_empty_str x then PyNone else x) r2 ->
    forall cg, loop_body json_loads cg l1 = loop_body json_loads cg l2.
Proof.
  intros l1 l2 r1 r2 H1 H2 Hv Hm cg.
  assert (He : _load_json_line json_loads l1 = _load_json_line json_loads l2).
  { unfold _load_json_line. rewrite H1, H2.
    cbn [py_iter bind py_getitem]. unfold getitem. rewrite Hv.
    assert (Hf : forall r,
      map (fun x => if negb (is_empty_str x) then x else PyNone) r
      = map (fun x => if is_empty_str x then PyNone else x) r).
    { intros r. apply map_ext. intros x. now destruct (is_empty_str x). }
    now rewrite !Hf, Hm. }
  unfold loop_body. now rewrite He.
Qed.

End Decoding.

Section Resolution.

Variable json_loads : str -> option pyval.

Ltac six_fields tup :=
  destruct tup as [|[?|] [|[?|] [|[?|] [|[?|] [|? [|? ?]]]]]].

(** X10: on a record of six positions or more, the only exception of
    [_parse_hextuple] is the ValueError that carries the record: it never
    raises an IndexError there. *)
Theorem X10_only_the_validation_error :
  forall cg tup e,
    6 <= length tup ->
    _parse_hextuple cg tup = Raise e ->
    e = ValueError tup.
Proof.
  intros cg tup e Hlen.
  six_fields tup; cbn in Hlen; try lia;
    try (rewrite parse_hextuple_validated; discriminate);
    unfold _parse_hextuple, required; cbn [getitem nth_error bind];
    intros H; inversion H; reflexivity.
Qed.

(** X11: with the datatype "globalId" or "localId" the language field is
    never read: a validated record gives the same result whatever its
    position 4 holds. *)
Theorem X11_identifiers_ignore_language :
  forall cg s p v d lang lang' rest,
    d = lit "globalId" \/ d = lit "localId" ->
    _parse_hextuple cg (Some s :: Some p :: Some v :: Some d :: lang :: rest)
    = _parse_hextuple cg (Some s :: Some p :: Some v :: Some d :: lang' :: rest).
Proof.
  intros cg s p v d lang lang' rest [-> | ->];
    unfold _parse_hextuple, required; cbn [getitem nth_error bind];
    reflexivity.
Qed.

(** X12: the object of a validated record with datatype "globalId" is the
    IRI of the unmodified value, also when the value starts with "_:"; with
    datatype "localId" it is a BlankNode, whose identifier is the value
    itself when "_:" does not occur in it (no prefix is required), and the
    remainder after the prefix when the value is "_:" followed by a
    remainder in which "_:" does not occur. *)
Theorem X12_identifier_objects :
  forall cg s p v lang g,
    (exists x,
       _parse_hextuple cg
         [Some s; Some p; Some v; Some (lit "globalId"); lang; g]
       = Ok (add cg x) /\
       object (insertion_of (default_context cg) x) = URIRef v) /\
    (exists x b,
       _parse_hextuple cg
         [Some s; Some p; Some v; Some (lit "localId"); lang; g]
       = Ok (add cg x) /\
       object (insertion_of (default_context cg) x) = BNode b /\
       (occurs (lit "_:") v = false -> b = v) /\
       (forall r, v = lit "_:" ++ r -> occurs (lit "_:") r = false -> b = r)).
Proof.
  intros cg s p v lang g. split.
  - eexists; split; [apply parse_hextuple_validated|].
    rewrite object_insertion_of. destruct g; reflexivity.
  - exists (match g with
            | Some c => Quad (if startswith s (lit "_")
                              then BNode (replace s (lit "_:") [])
                              else URIRef s)
                          (URIRef p) (BNode (replace v (lit "_:") []))
                          (URIRef c)
            | None => Triple (if startswith s (lit "_")
                              then BNode (replace s (lit "_:") [])
                              else URIRef s)
                          (URIRef p) (BNode (replace v (lit "_:") []))
            end), (replace v (lit "_:") []).
    split; [rewrite parse_hextuple_validated; destruct g; reflexivity|].
    split; [destruct g; reflexivity|]. split.
    + apply replace_absent.
    + intros r -> Hr. now apply replace_prefix_once.
Qed.

(** X13: a label that starts with "_" names the same node as a subject and
    as a local identifier: the subject term of a record with subject [n] is
    the object term of a record with value [n] and datatype "localId". *)
Theorem X13_subject_and_local_object_agree :
  forall cg n p v d lang g s' p' lang' g',
    startswith n (lit "_") = true ->
    exists x y,
      _parse_hextuple cg [Some n; Some p; Some v; Some d; lang; g]
      = Ok (add cg x) /\
      _parse_hextuple cg
        [Some s'; Some p'; Some n; Some (lit "localId"); lang'; g']
      = Ok (add cg y) /\
      subject (insertion_of (default_context cg) x)
      = object (insertion_of (default_context cg) y).
Proof.
  intros cg n p v d lang g s' p' lang' g' Hn.
  do 2 eexists. split; [apply parse_hextuple_validated|].
  split; [apply parse_hextuple_validated|].
  rewrite subject_insertion_of, object_insertion_of, Hn.
  destruct g, g'; reflexivity.
Qed.

Lemma annotated_fields s p v d l g :
  annotated
    [match field s with Some x => PyStr x | None => PyNone end;
     match field p with Some x => PyStr x | None => PyNone end;
     PyStr v;
     match field d with Some x => PyStr x | None => PyNone end;
     match field l with Some x => PyStr x | None => PyNone end;
     match field g with Some x => PyStr x | None => PyNone end]
  = Some [field s; field p; Some v; field d; field l; field g].
Proof. destruct s, p, d, l, g; reflexivity. Qed.

Lemma load_six_strings line s p v d l g :
  json_loads line
  = Some (PyList [PyStr s; PyStr p; PyStr v; PyStr d; PyStr l; PyStr g]) ->
  _load_json_line json_loads line
  = Ok [match field s with Some x => PyStr x | None => PyNone end;
        match field p with Some x => PyStr x | None => PyNone end;
        PyStr v;
        match field d with Some x => PyStr x | None => PyNone end;
        match field l with Some x => PyStr x | None => PyNone end;
        match field g with Some x => PyStr x | None => PyNone end].
Proof.
  intros H. unfold _load_json_line. rewrite H.
  destruct s, p, v, d, l, g; reflexivity.
Qed.

(** X14: validation as the wire sees it.  A line whose array is six strings
    raises the ValueError exactly when its subject, predicate or datatype
    string is empty, and the error carries the decoded record, in which the
    empty strings outside the value are null; otherwise the line produces a
    statement.  The value string may be empty in both cases. *)
Theorem X14_validation_of_a_line :
  forall line s p v d l g,
    json_loads line
    = Some (PyList [PyStr s; PyStr p; PyStr v; PyStr d; PyStr l; PyStr g]) ->
    (s = [] \/ p = [] \/ d = [] ->
     raises json_loads line
       (ValueError [field s; field p; Some v; field d; field l; field g])) /\
    (s <> [] -> p <> [] -> d <> [] ->
     exists x, produces json_loads line x).
Proof.
  intros line s p v d l g H. split.
  - intros Hempty cg. unfold loop_body.
    rewrite (load_six_strings _ _ _ _ _ _ _ H), annotated_fields.
    destruct s as [|? ?], p as [|? ?], d as [|? ?];
      try reflexivity;
      destruct Hempty as [He | [He | He]]; discriminate He.
  - intros Hs Hp Hd.
    destruct s as [|a s]; [now contradiction Hs|].
    destruct p as [|b p]; [now contradiction Hp|].
    destruct d as [|c d]; [now contradiction Hd|].
    eexists. intros cg. unfold loop_body.
    rewrite (load_six_strings _ _ _ _ _ _ _ H), annotated_fields.
    cbn [field]. now rewrite parse_hextuple_validated.
Qed.

End Resolution.

(** ** The further properties on concrete lines *)

Lemma X2_witness :
  (StringInputSource [line_typed; line_blank]
   = FileInputSource (Some [line_typed; line_blank]) \/
   StringInputSource [line_typed; line_blank]
   = StringInputSource [line_typed; line_blank]) /\
  ended (parse wire_loads (StringInputSource [line_typed; line_blank])
           example_graph) = Returned /\
  unread (parse wire_loads (StringInputSource [line_typed; line_blank])
            example_graph) = [] /\
  exists xs,
    Forall2 (produces wire_loads) [line_typed; line_blank] xs /\
    inserted (after
      (parse wire_loads (StringInputSource [line_typed; line_blank])
         example_graph))
    = inserted (store example_graph)
      ++ map (insertion_of (identifier example_graph)) xs.
Proof.
  split; [right; reflexivity|]. split; [vm_compute; reflexivity|].
  apply (X2_one_statement_per_line wire_loads
           (StringInputSource [line_typed; line_blank]) example_graph
           [line_typed; line_blank]).
  - right; reflexivity.
  - vm_compute; reflexivity.
Defined.

Lemma X3_witness :
  context_aware (store example_graph) = true /\
  ended (parse wire_loads
           (StringInputSource [line_typed; line_no_subject; line_blank])
           example_graph)
  = Raised (ValueError no_subject) /\
  exists pre bad xs,
    [line_typed; line_no_subject; line_blank]
    = pre ++ bad :: unread (parse wire_loads
           (StringInputSource [line_typed; line_no_subject; line_blank])
           example_graph) /\
    Forall2 (produces wire_loads) pre xs /\
    raises wire_loads bad (ValueError no_subject) /\
    inserted (after (parse wire_loads
           (StringInputSource [line_typed; line_no_subject; line_blank])
           example_graph))
    = inserted (store example_graph)
      ++ map (insertion_of (identifier example_graph)) xs.
Proof.
  split; [reflexivity|]. split; [vm_compute; reflexivity|].
  apply (X3_stopped_run wire_loads
           [line_typed; line_no_subject; line_blank] example_graph
           (ValueError no_subject)).
  - reflexivity.
  - vm_compute; reflexivity.
Defined.

Lemma X4_witness :
  context_aware (store example_graph) = true /\
  ended (parse wire_loads (StringInputSource [line_typed]) example_graph)
  = Returned /\
  parse wire_loads (StringInputSource ([line_typed] ++ [line_blank]))
    example_graph
  = parse wire_loads (StringInputSource [line_blank])
      {| store := after (parse wire_loads (StringInputSource [line_typed])
                           example_graph);
         identifier := identifier example_graph |}.
Proof.
  split; [reflexivity|]. split; [vm_compute; reflexivity|].
  apply (X4_parse_in_two_calls wire_loads example_graph
           [line_typed] [line_blank]).
  - reflexivity.
  - vm_compute; reflexivity.
Defined.

(** A second graph of the same identifier, on a store that already holds a
    statement. *)
Lemma X5_witness :
  context_aware (store example_graph) = true /\
  context_aware
    {| context_aware := true;
       inserted := [insertion_of (identifier example_graph)
                      (Triple (BNode (lit "b1")) (URIRef (lit "http://b"))
                         (BNode (lit "b2")))] |} = true /\
  exists added,
    inserted (after (parse wire_loads
       (StringInputSource [line_typed; line_no_subject]) example_graph))
    = inserted (store example_graph) ++ added /\
    inserted (after (parse wire_loads
       (StringInputSource [line_typed; line_no_subject])
       {| store :=
            {| context_aware := true;
               inserted := [insertion_of (identifier example_graph)
                              (Triple (BNode (lit "b1"))
                                 (URIRef (lit "http://b"))
                                 (BNode (lit "b2")))] |};
          identifier := identifier example_graph |}))
    = [insertion_of (identifier example_graph)
         (Triple (BNode (lit "b1")) (URIRef (lit "http://b"))
            (BNode (lit "b2")))] ++ added /\
    ended (parse wire_loads
       (StringInputSource [line_typed; line_no_subject]) example_graph)
    = ended (parse wire_loads
       (StringInputSource [line_typed; line_no_subject])
       {| store :=
            {| context_aware := true;
               inserted := [insertion_of (identifier example_graph)
                              (Triple (BNode (lit "b1"))
                                 (URIRef (lit "http://b"))
                                 (BNode (lit "b2")))] |};
          identifier := identifier example_graph |}) /\
    unread (parse wire_loads
       (StringInputSource [line_typed; line_no_subject]) example_graph)
    = unread (parse wire_loads
       (StringInputSource [line_typed; line_no_subject])
       {| store :=
            {| context_aware := true;
               inserted := [insertion_of (identifier example_graph)
                              (Triple (BNode (lit "b1"))
                                 (URIRef (lit "http://b"))
                                 (BNode (lit "b2")))] |};
          identifier := identifier example_graph |}).
Proof.
  split; [reflexivity|]. split; [reflexivity|].
  exact (X5_run_independent_of_store wire_loads
           (StringInputSource [line_typed; line_no_subject])
           example_graph
           {| store :=
                {| context_aware := true;
                   inserted := [insertion_of (identifier example_graph)
                                  (Triple (BNode (lit "b1"))
                                     (URIRef (lit "http://b"))
                                     (BNode (lit "b2")))] |};
              identifier := identifier example_graph |}
           eq_refl eq_refl eq_refl).
Defined.

Lemma X6_witness :
  value_loads line_string = Some (PyStr (lit "abcdefg")) /\
  3 <= length (lit "abcdefg") /\
  _load_json_line value_loads line_string
  = Ok (map (fun c => PyStr [c]) (lit "abcdefg")).
Proof.
  split; [vm_compute; reflexivity|]. split; [cbn; lia|].
  apply (X6_json_string_line value_loads line_string (lit "abcdefg")).
  - vm_compute; reflexivity.
  - cbn; lia.
Defined.

Lemma X7_witness :
  value_loads line_number = Some (PyNumber (lit "42")) /\
  (forall xs, PyNumber (lit "42") <> PyList xs) /\
  (forall s, PyNumber (lit "42") <> PyStr s) /\
  raises value_loads line_number TypeError.
Proof.
  split; [vm_compute; reflexivity|].
  split; [discriminate|]. split; [discriminate|].
  apply (X7_json_of_another_kind value_loads line_number
           (PyNumber (lit "42"))).
  - vm_compute; reflexivity.
  - discriminate.
  - discriminate.
Defined.

Lemma X8_witness :
  _load_json_line wire_loads line_no_subject
  = Ok [PyNone; PyStr (lit "p"); PyStr []; PyStr (lit "d"); PyNone; PyNone] /\
  0 <> 2 /\
  nth_error
    [PyNone; PyStr (lit "p"); PyStr []; PyStr (lit "d"); PyNone; PyNone] 0
  <> Some (PyStr []).
Proof.
  split; [vm_compute; reflexivity|]. split; [lia|].
  apply (X8_no_empty_field_left wire_loads line_no_subject
           [PyNone; PyStr (lit "p"); PyStr []; PyStr (lit "d"); PyNone; PyNone]
           0).
  - vm_compute; reflexivity.
  - lia.
Defined.

Lemma X9_witness :
  wire_loads line_typed
  = Some (PyList [PyStr (lit "http://a"); PyStr (lit "http://b");
                  PyStr (lit "v"); PyStr xsd_string; PyStr []; PyStr []]) /\
  wire_loads line_typed_nulls
  = Some (PyList [PyStr (lit "http://a"); PyStr (lit "http://b");
                  PyStr (lit "v"); PyStr xsd_string; PyNone; PyNone]) /\
  forall cg,
    loop_body wire_loads cg line_typed
    = loop_body wire_loads cg line_typed_nulls.
Proof.
  split; [vm_compute; reflexivity|]. split; [vm_compute; reflexivity|].
  apply (X9_empty_string_or_null wire_loads line_typed line_typed_nulls
           [PyStr (lit "http://a"); PyStr (lit "http://b");
            PyStr (lit "v"); PyStr xsd_string; PyStr []; PyStr []]
           [PyStr (lit "http://a"); PyStr (lit "http://b");
            PyStr (lit "v"); PyStr xsd_string; PyNone; PyNone]).
  - vm_compute; reflexivity.
  - vm_compute; reflexivity.
  - reflexivity.
  - reflexivity.
Defined.

Lemma X10_witness :
  6 <= length no_subject /\
  _parse_hextuple (conjunctive example_graph) no_subject
  = Raise (ValueError no_subject) /\
  ValueError no_subject = ValueError no_subject.
Proof.
  split; [cbn; lia|]. split; [reflexivity|].
  apply (X10_only_the_validation_error (conjunctive example_graph)
           no_subject (ValueError no_subject)).
  - cbn; lia.
  - reflexivity.
Defined.

Lemma X11_witness :
  (lit "globalId" = lit "globalId" \/ lit "globalId" = lit "localId") /\
  _parse_hextuple (conjunctive example_graph)
    [Some (lit "http://a"); Some (lit "http://b"); Some (lit "http://x/y");
     Some (lit "globalId"); Some (lit "en"); None]
  = _parse_hextuple (conjunctive example_graph)
    [Some (lit "http://a"); Some (lit "http://b"); Some (lit "http://x/y");
     Some (lit "globalId"); None; None].
Proof.
  split; [left; reflexivity|].
  apply (X11_identifiers_ignore_language (conjunctive example_graph)
           (lit "http://a") (lit "http://b") (lit "http://x/y")
           (lit "globalId") (Some (lit "en")) None [None]).
  left; reflexivity.
Defined.

Lemma X13_witness :
  startswith (lit "_:b1") (lit "_") = true /\
  exists x y,
    _parse_hextuple (conjunctive example_graph)
      [Some (lit "_:b1"); Some (lit "http://b"); Some (lit "v");
       Some xsd_string; None; None]
    = Ok (add (conjunctive example_graph) x) /\
    _parse_hextuple (conjunctive example_graph)
      [Some (lit "http://a"); Some (lit "http://b"); Some (lit "_:b1");
       Some (lit "localId"); None; None]
    = Ok (add (conjunctive example_graph) y) /\
    subject (insertion_of (default_context (conjunctive example_graph)) x)
    = object (insertion_of (default_context (conjunctive example_graph)) y).
Proof.
  split; [reflexivity|].
  apply (X13_subject_and_local_object_agree (conjunctive example_graph)
           (lit "_:b1") (lit "http://b") (lit "v") xsd_string None None
           (lit "http://a") (lit "http://b") None None).
  reflexivity.
Defined.

Lemma X14_witness :
  wire_loads line_no_subject
  = Some (PyList [PyStr []; PyStr (lit "p"); PyStr []; PyStr (lit "d");
                  PyStr []; PyStr []]) /\
  ([] = @nil char \/ lit "p" = [] \/ lit "d" = []) /\
  raises wire_loads line_no_subject
    (ValueError [field []; field (lit "p"); Some []; field (lit "d");
                 field []; field []]).
Proof.
  split; [vm_compute; reflexivity|]. split; [left; reflexivity|].
  apply (X14_validation_of_a_line wire_loads line_no_subject
           [] (lit "p") [] (lit "d") [] []).
  - vm_compute; reflexivity.
  - left; reflexivity.
Defined.
